(** * nicetry: the [Try] / [Success] / [Failure] outcome type

    A shallow embedding of [nicetry.py].  Python objects live in a store
    indexed by object identity, exceptions are values tagged with their
    class, and every method is a function in a state-and-exception monad,
    so that object identity, the mutable iteration cursor of [Success] and
    the [try ... except Exception] blocks are all explicit. *)

From Stdlib Require Import ZArith String.
From stdpp Require Import base list strings.

Open Scope string_scope.
Open Scope list_scope.

(** ** Exception classes

    The part of Python's exception hierarchy the module touches, the
    module's own [UnsupportedOperationException], and user-defined
    subclasses given by a name and a base class. *)

Inductive ExcClass : Type :=
  | BaseException
  | Exception
  | StopIteration
  | ArithmeticError
  | ZeroDivisionError
  | ValueError
  | TypeError
  | KeyboardInterrupt
  | SystemExit
  | GeneratorExit
  | UnsupportedOperationException
  | UserClass (name : string) (base : ExcClass).

#[global] Instance ExcClass_eq_dec : EqDecision ExcClass.
Proof. solve_decision. Defined.

(** Method resolution order: the class followed by its ancestors. *)
Fixpoint mro (c : ExcClass) : list ExcClass :=
  match c with
  | BaseException => [BaseException]
  | Exception => [Exception; BaseException]
  | StopIteration => [StopIteration; Exception; BaseException]
  | ArithmeticError => [ArithmeticError; Exception; BaseException]
  | ZeroDivisionError =>
      [ZeroDivisionError; ArithmeticError; Exception; BaseException]
  | ValueError => [ValueError; Exception; BaseException]
  | TypeError => [TypeError; Exception; BaseException]
  | KeyboardInterrupt => [KeyboardInterrupt; BaseException]
  | SystemExit => [SystemExit; BaseException]
  | GeneratorExit => [GeneratorExit; BaseException]
  | UnsupportedOperationException =>
      [UnsupportedOperationException; Exception; BaseException]
  | UserClass n b => UserClass n b :: mro b
  end.

Definition issubclass (c d : ExcClass) : bool := bool_decide (d ∈ mro c).

(** ** Values, objects and the store *)

Definition loc := nat.

Record PyExc : Type := mkExc { exc_class : ExcClass; exc_msg : string }.

Inductive Value : Type :=
  | VNone
  | VBool (b : bool)
  | VInt (z : Z)
  | VStr (s : string)
  | VExc (e : PyExc)
  | VRef (l : loc).

(** A [Try] instance.  [Success] has the slots [_value] and [_has_next];
    [Failure] declares no slot of its own and has [_value] only. *)
Inductive TryObj : Type :=
  | SuccessObj (_value : Value) (_has_next : bool)
  | FailureObj (_value : Value).

(** The store maps an object identity to the object; [calls] counts the
    invocations of callables (a ghost counter, no method reads it). *)
Record State : Type := mkState { heap : list TryObj; calls : nat }.

Inductive Outcome (A : Type) : Type :=
  | Returned (a : A)
  | Raised (e : PyExc)
  | Wrong.
Arguments Returned {A} a.
Arguments Raised {A} e.
Arguments Wrong {A}.

Definition M (A : Type) : Type := State -> Outcome A * State.

Definition ret {A} (a : A) : M A := fun s => (Returned a, s).

Definition bind {A B} (m : M A) (k : A -> M B) : M B :=
  fun s =>
    match m s with
    | (Returned a, s') => k a s'
    | (Raised e, s') => (Raised e, s')
    | (Wrong, s') => (Wrong, s')
    end.

Notation "x <- m ;; k" := (bind m (fun x => k))
  (at level 100, m at next level, right associativity).

Definition raise {A} (e : PyExc) : M A := fun s => (Raised e, s).

Definition isinstance (e : PyExc) (c : ExcClass) : bool :=
  issubclass (exc_class e) c.

(** [try: body except cls as e: handler e]. *)
Definition try_except {A} (body : M A) (cls : ExcClass)
    (handler : PyExc -> M A) : M A :=
  fun s =>
    match body s with
    | (Raised e, s') =>
        if isinstance e cls then handler e s' else (Raised e, s')
    | r => r
    end.

(** [raise x]: an exception instance is raised as it is, anything else
    makes the [raise] statement itself fail with a [TypeError]. *)
Definition raise_value {A} (x : Value) : M A :=
  match x with
  | VExc e => raise e
  | _ => raise (mkExc TypeError "exceptions must derive from BaseException")
  end.

(** Allocation of a new object; its identity is the next free index. *)
Definition alloc (o : TryObj) : M Value :=
  fun s => (Returned (VRef (length (heap s))),
            mkState (heap s ++ [o]) (calls s)).

Definition deref (l : loc) : M TryObj :=
  fun s => match heap s !! l with
           | Some o => (Returned o, s)
           | None => (Wrong, s)
           end.

Definition store (l : loc) (o : TryObj) : M unit :=
  fun s => (Returned tt, mkState (<[l := o]> (heap s)) (calls s)).

(** Callables, and their invocation. *)
Definition Callable0 := M Value.
Definition Callable1 := Value -> M Value.

Definition tick (s : State) : State := mkState (heap s) (S (calls s)).

Definition invoke0 (f : Callable0) : M Value := fun s => f (tick s).
Definition invoke1 (f : Callable1) (x : Value) : M Value :=
  fun s => f x (tick s).

(** ** The classes *)

(** [Success(value)] and [Failure(exception)]: the constructors. *)
Definition Success (value : Value) : M Value := alloc (SuccessObj value true).
Definition Failure (exception : Value) : M Value := alloc (FailureObj exception).

Module Try.

Definition is_failure (self : loc) : M bool :=
  o <- deref self ;;
  ret (match o with FailureObj _ => true | SuccessObj _ _ => false end).

Definition is_success (self : loc) : M bool :=
  o <- deref self ;;
  ret (match o with SuccessObj _ _ => true | FailureObj _ => false end).

Definition value (self : loc) : M Value :=
  o <- deref self ;;
  ret (match o with SuccessObj v _ => v | FailureObj v => v end).

(** [get] is abstract in [Try]; [Success.get] returns [_value],
    [Failure.get] raises it. *)
Definition get (self : loc) : M Value :=
  o <- deref self ;;
  match o with
  | SuccessObj v _ => ret v
  | FailureObj v => raise_value v
  end.

Definition to (f : Callable0) : M Value :=
  try_except (v <- invoke0 f ;; Success v)
    Exception (fun e => Failure (VExc e)).

Definition apply (f : Callable0) : M Value := to f.

(** [self._value] is read through [value], the property that returns it. *)
Definition failed (self : loc) : M Value :=
  b <- is_failure self ;;
  if b : bool then v <- value self ;; Success v
  else Failure (VExc (mkExc UnsupportedOperationException "Success.failed")).

Definition get_or_else (self : loc) (default_value : Value) : M Value :=
  b <- is_failure self ;;
  if b : bool then ret default_value else get self.

Definition flat_map (self : loc) (f : Callable1) : M Value :=
  try_except (v <- get self ;; invoke1 f v)
    Exception (fun e => Failure (VExc e)).

Definition map (self : loc) (f : Callable1) : M Value :=
  b <- is_success self ;;
  if b : bool then to (v <- get self ;; invoke1 f v) else ret (VRef self).

Definition or_else (self : loc) (t : Value) : M Value :=
  b <- is_success self ;;
  if b : bool then ret (VRef self) else ret t.

Definition for_each (self : loc) (f : Callable1) : M Value :=
  o <- deref self ;;
  match o with
  | SuccessObj _ _ => v <- get self ;; invoke1 f v
  | FailureObj _ => ret VNone
  end.

Definition __iter__ (self : loc) : M Value := ret (VRef self).

(** [Success.__next__] and [Failure.__next__]. *)
Definition __next__ (self : loc) : M Value :=
  o <- deref self ;;
  match o with
  | SuccessObj v true =>
      _ <- store self (SuccessObj v false) ;; ret v
  | SuccessObj v false =>
      _ <- store self (SuccessObj v true) ;;
      raise (mkExc StopIteration "")
  | FailureObj _ => raise (mkExc StopIteration "")
  end.

End Try.

(** ** The iteration protocol of the interpreter

    [for x in obj] and [list(obj)] call [iter(obj)] once and then
    [__next__] on the iterator until it raises [StopIteration]; any other
    exception leaves the loop.  The loop is bounded by [fuel]; [None]
    means the bound was reached before the iterator stopped. *)

Fixpoint drain (fuel : nat) (it : loc) (s : State)
    : option (Outcome (list Value) * State) :=
  match fuel with
  | O => None
  | S n =>
      match Try.__next__ it s with
      | (Returned x, s1) =>
          match drain n it s1 with
          | Some (Returned xs, s2) => Some (Returned (x :: xs), s2)
          | r => r
          end
      | (Raised e, s1) =>
          if isinstance e StopIteration then Some (Returned [], s1)
          else Some (Raised e, s1)
      | (Wrong, s1) => Some (Wrong, s1)
      end
  end.

(** One complete pass, [list(obj)]. *)
Definition iterate (fuel : nat) (obj : loc) (s : State)
    : option (Outcome (list Value) * State) :=
  match Try.__iter__ obj s with
  | (Returned (VRef it), s1) => drain fuel it s1
  | (Returned _, s1) =>
      Some (Raised (mkExc TypeError "iter() returned non-iterator"), s1)
  | (Raised e, s1) => Some (Raised e, s1)
  | (Wrong, s1) => Some (Wrong, s1)
  end.

(** [n] complete passes over the same object, one after the other. *)
Fixpoint passes (fuel n : nat) (obj : loc) (s : State)
    : option (list (Outcome (list Value)) * State) :=
  match n with
  | O => Some ([], s)
  | S k =>
      match iterate fuel obj s with
      | Some (r, s1) =>
          match passes fuel k obj s1 with
          | Some (rs, s2) => Some (r :: rs, s2)
          | None => None
          end
      | None => None
      end
  end.

(** [n] consecutive calls of [__next__] on the same iterator; an exception
    raised by one call is recorded and the next call is made all the same. *)
Fixpoint nexts (n : nat) (it : loc) (s : State)
    : list (Outcome Value) * State :=
  match n with
  | O => ([], s)
  | S k =>
      let '(r, s1) := Try.__next__ it s in
      let '(rs, s2) := nexts k it s1 in
      (r :: rs, s2)
  end.

(** A pass abandoned after its first element: [for x in obj: break]. *)
Definition first_then_break (obj : loc) : M Value :=
  it <- Try.__iter__ obj ;;
  match it with
  | VRef i => Try.__next__ i
  | _ => raise (mkExc TypeError "iter() returned non-iterator")
  end.

(** ** Sample exceptions, callables and stores *)

Definition s_init : State := mkState [] 0.

Definition division_by_zero : PyExc :=
  mkExc ZeroDivisionError "division by zero".

Definition value_error : PyExc :=
  mkExc ValueError "invalid literal for int()".

Definition s_one : State := mkState [SuccessObj (VInt 1) true] 0.
Definition s_err : State := mkState [FailureObj (VExc value_error)] 0.

Definition keyboard_interrupt : PyExc := mkExc KeyboardInterrupt "".

Definition stop_iteration : PyExc := mkExc StopIteration "".

Definition unsupported : PyExc :=
  mkExc UnsupportedOperationException "Success.failed".

(** [lambda x: x + 1] on integers; any other argument is a [TypeError]. *)
Definition add_one : Callable1 :=
  fun x => match x with
           | VInt z => ret (VInt (z + 1))
           | _ => raise (mkExc TypeError "unsupported operand type(s)")
           end.

(** [lambda x: Try.to(lambda: x + 1)]. *)
Definition try_add_one : Callable1 :=
  fun x => Try.to (add_one x).

(** ** What the payloads are *)

Definition is_error (v : Value) : bool :=
  match v with VExc _ => true | _ => false end.

(** The invariant the specification words: no error in a [Success], an
    error in every [Failure]. *)
Definition payload_as_specified (o : TryObj) : bool :=
  match o with
  | SuccessObj v _ => negb (is_error v)
  | FailureObj v => is_error v
  end.

(** Its [Failure] half alone. *)
Definition failure_holds_error (o : TryObj) : bool :=
  match o with
  | SuccessObj _ _ => true
  | FailureObj v => is_error v
  end.

Definition failures_hold_errors (s : State) : Prop :=
  Forall (fun o => failure_holds_error o = true) (heap s).

(** The operations a client can perform: the two constructors, called as
    their signatures ask ([Failure] takes an exception), the factory and
    every method. *)
Inductive Op : Type :=
  | NewSuccess (v : Value)
  | NewFailure (e : PyExc)
  | CallTo (f : Callable0)
  | CallApply (f : Callable0)
  | CallGet (self : loc)
  | CallFailed (self : loc)
  | CallGetOrElse (self : loc) (d : Value)
  | CallFlatMap (self : loc) (f : Callable1)
  | CallMap (self : loc) (f : Callable1)
  | CallOrElse (self : loc) (t : Value)
  | CallForEach (self : loc) (f : Callable1)
  | CallIter (self : loc)
  | CallNext (self : loc).

Definition run (op : Op) : M Value :=
  match op with
  | NewSuccess v => Success v
  | NewFailure e => Failure (VExc e)
  | CallTo f => Try.to f
  | CallApply f => Try.apply f
  | CallGet self => Try.get self
  | CallFailed self => Try.failed self
  | CallGetOrElse self d => Try.get_or_else self d
  | CallFlatMap self f => Try.flat_map self f
  | CallMap self f => Try.map self f
  | CallOrElse self t => Try.or_else self t
  | CallForEach self f => Try.for_each self f
  | CallIter self => Try.__iter__ self
  | CallNext self => Try.__next__ self
  end.

Definition preserves {A} (m : M A) : Prop :=
  forall s, failures_hold_errors s -> failures_hold_errors (snd (m s)).

(** The callables handed to an operation do not themselves break the
    [Failure] half of the invariant. *)
Definition callables_preserve (op : Op) : Prop :=
  match op with
  | CallTo f | CallApply f => preserves f
  | CallFlatMap _ f | CallMap _ f | CallForEach _ f =>
      forall x, preserves (f x)
  | _ => True
  end.

Inductive reachable : State -> Prop :=
  | reach_init : reachable s_init
  | reach_step (s : State) (op : Op) :
      reachable s -> callables_preserve op -> reachable (snd (run op s)).

(** ** Printing

    [__repr__] and [__str__] format [str(self._value)].  [str] is the
    interpreter's builtin, not code of the module: it is a parameter
    here.  It runs the payload's own [__str__], so it is a computation
    like any other: it may raise and may change the state. *)

Definition payload (o : TryObj) : Value :=
  match o with SuccessObj v _ => v | FailureObj v => v end.

Definition __str__ (builtin_str : Value -> M string) (self : loc)
    : M Value :=
  o <- deref self ;;
  t <- builtin_str (payload o) ;;
  ret (VStr t).

Definition __repr__ (builtin_str : Value -> M string) (self : loc)
    : M Value :=
  o <- deref self ;;
  match o with
  | SuccessObj v _ =>
      t <- builtin_str v ;;
      ret (VStr (String.append "Success(" (String.append t ")")))
  | FailureObj v =>
      t <- builtin_str v ;;
      ret (VStr (String.append "Failure(" (String.append t ")")))
  end.

(** [str] on strings; it raises on every other value. *)
Definition str_of_string : Value -> M string :=
  fun w => match w with
           | VStr t => ret t
           | _ => raise value_error
           end.

(** ** Method calls on a value

    [x.m(...)] where [x] is the value an earlier call returned: a
    reference dispatches to the method, anything else has no such
    attribute. *)

Definition attribute_error : PyExc :=
  mkExc (UserClass "AttributeError" Exception) "object has no attribute".

Definition method {A} (x : Value) (m : loc -> M A) : M A :=
  match x with
  | VRef l => m l
  | _ => raise attribute_error
  end.

(** [Try.to(f).get_or_else(d)]. *)
Definition to_get_or_else (f : Callable0) (d : Value) : M Value :=
  r <- Try.to f ;; method r (fun l => Try.get_or_else l d).

(** [t.failed().get()] and [t.failed().failed()]. *)
Definition failed_get (self : loc) : M Value :=
  r <- Try.failed self ;; method r Try.get.

Definition failed_failed (self : loc) : M Value :=
  r <- Try.failed self ;; method r Try.failed.

(** [t.flat_map(Success)]: the class itself is the callable. *)
Definition flat_map_Success_class (self : loc) : M Value :=
  Try.flat_map self Success.

(** ** Objects do not change

    Two objects are the same but for the cursor; a later store extends an
    earlier one when every object of the earlier one is still there, the
    same but for its cursor. *)





(** ** Basic facts *)

Lemma deref_Some (s : State) (l : loc) (o : TryObj) :
  heap s !! l = Some o -> deref l s = (Returned o, s).
Proof. intros H. unfold deref. now rewrite H. Qed.

Lemma State_eta (s : State) : mkState (heap s) (calls s) = s.
Proof. now destruct s. Qed.

Lemma lookup_snoc (h : list TryObj) (o : TryObj) :
  (h ++ [o]) !! length h = Some o.
Proof. rewrite lookup_app_r by lia. now rewrite Nat.sub_diag. Qed.

Lemma lookup_snoc_old (h : list TryObj) (o o' : TryObj) (l : loc) :
  h !! l = Some o -> (h ++ [o']) !! l = Some o.
Proof. intros H. rewrite lookup_app_l; [done | by eapply lookup_lt_Some]. Qed.

(** Every class that descends from [StopIteration] descends from
    [Exception]. *)
Lemma mro_StopIteration_Exception (c : ExcClass) :
  StopIteration ∈ mro c -> Exception ∈ mro c.
Proof.
  induction c; simpl; intros H;
    try (repeat (apply elem_of_cons in H as [H | H]; [discriminate H |]);
         now apply elem_of_nil in H);
    try (repeat constructor; fail).
  apply elem_of_cons in H as [H | H]; [discriminate H |].
  apply elem_of_cons. right. now apply IHc.
Qed.

Lemma isinstance_StopIteration_Exception (e : PyExc) :
  isinstance e StopIteration = true -> isinstance e Exception = true.
Proof.
  unfold isinstance, issubclass. intros H.
  apply bool_decide_eq_true in H. apply bool_decide_eq_true.
  now apply mro_StopIteration_Exception.
Qed.

Lemma get_Success (s : State) (l : loc) (v : Value) (b : bool) :
  heap s !! l = Some (SuccessObj v b) -> Try.get l s = (Returned v, s).
Proof.
  intros H. unfold Try.get, bind. now rewrite (deref_Some _ _ _ H).
Qed.

Lemma get_Failure (s : State) (l : loc) (e : PyExc) :
  heap s !! l = Some (FailureObj (VExc e)) -> Try.get l s = (Raised e, s).
Proof.
  intros H. unfold Try.get, bind. now rewrite (deref_Some _ _ _ H).
Qed.

Lemma is_success_Success (s : State) (l : loc) (v : Value) (b : bool) :
  heap s !! l = Some (SuccessObj v b) ->
  Try.is_success l s = (Returned true, s) /\
  Try.is_failure l s = (Returned false, s).
Proof.
  intros H. unfold Try.is_success, Try.is_failure, bind.
  now rewrite (deref_Some _ _ _ H).
Qed.

Lemma is_failure_Failure (s : State) (l : loc) (x : Value) :
  heap s !! l = Some (FailureObj x) ->
  Try.is_failure l s = (Returned true, s) /\
  Try.is_success l s = (Returned false, s).
Proof.
  intros H. unfold Try.is_success, Try.is_failure, bind.
  now rewrite (deref_Some _ _ _ H).
Qed.

(** What [Try.to] does, by the three ways its thunk can end. *)
Lemma to_Returned (f : Callable0) (s s1 : State) (v : Value) :
  f (tick s) = (Returned v, s1) ->
  Try.to f s = (Returned (VRef (length (heap s1))),
                mkState (heap s1 ++ [SuccessObj v true]) (calls s1)).
Proof.
  intros H. unfold Try.to, try_except, bind, invoke0. now rewrite H.
Qed.

Lemma to_Raised (f : Callable0) (s s1 : State) (e : PyExc) :
  f (tick s) = (Raised e, s1) ->
  Try.to f s =
    if isinstance e Exception
    then (Returned (VRef (length (heap s1))),
          mkState (heap s1 ++ [FailureObj (VExc e)]) (calls s1))
    else (Raised e, s1).
Proof.
  intros H. unfold Try.to, try_except, bind, invoke0. now rewrite H.
Qed.

Lemma flat_map_Success (f : Callable1) (s : State) (l : loc)
    (v : Value) (b : bool) :
  heap s !! l = Some (SuccessObj v b) ->
  Try.flat_map l f s =
    match f v (tick s) with
    | (Raised e, s1) =>
        if isinstance e Exception then Failure (VExc e) s1
        else (Raised e, s1)
    | r => r
    end.
Proof.
  intros H. unfold Try.flat_map, try_except, bind.
  rewrite (get_Success _ _ _ _ H). unfold invoke1.
  now destruct (f v (tick s)) as [[r | e |] s1].
Qed.

Lemma flat_map_Failure (f : Callable1) (s : State) (l : loc) (e : PyExc) :
  heap s !! l = Some (FailureObj (VExc e)) ->
  Try.flat_map l f s =
    if isinstance e Exception then Failure (VExc e) s else (Raised e, s).
Proof.
  intros H. unfold Try.flat_map, try_except, bind.
  now rewrite (get_Failure _ _ _ H).
Qed.

Lemma map_Success (f : Callable1) (s : State) (l : loc)
    (v : Value) (b : bool) :
  heap s !! l = Some (SuccessObj v b) ->
  Try.map l f s = Try.to (invoke1 f v) s.
Proof.
  intros H. unfold Try.map at 1. unfold bind at 1.
  rewrite (proj1 (is_success_Success _ _ _ _ H)).
  unfold Try.to, try_except, bind, invoke0.
  assert (Ht : heap (tick s) !! l = Some (SuccessObj v b)) by exact H.
  now rewrite (get_Success _ _ _ _ Ht).
Qed.

Lemma map_Failure (f : Callable1) (s : State) (l : loc) (x : Value) :
  heap s !! l = Some (FailureObj x) ->
  Try.map l f s = (Returned (VRef l), s).
Proof.
  intros H. unfold Try.map, bind.
  now rewrite (proj2 (is_failure_Failure _ _ _ H)).
Qed.

(** What leaves a [try ... except Exception] as an exception is not an
    instance of [Exception], when the handler itself returns. *)
Lemma try_except_raises_only_non_Exception {A} (body : M A)
    (handler : PyExc -> M A) (s s1 : State) (e : PyExc) :
  (forall e0 s0, exists a s2, handler e0 s0 = (Returned a, s2)) ->
  try_except body Exception handler s = (Raised e, s1) ->
  isinstance e Exception = false.
Proof.
  intros Hh. unfold try_except.
  destruct (body s) as [[a | e0 |] s0]; try discriminate.
  destruct (isinstance e0 Exception) eqn:E.
  - destruct (Hh e0 s0) as (a & s2 & ->). discriminate.
  - now intros [= <- <-].
Qed.

Lemma to_raises_only_non_Exception (f : Callable0) (s s1 : State)
    (e : PyExc) :
  Try.to f s = (Raised e, s1) -> isinstance e Exception = false.
Proof.
  apply try_except_raises_only_non_Exception.
  intros e0 s0. eexists _, _. reflexivity.
Qed.

(** ** The factory *)

(** C1.  A thunk that returns [v] makes [Try.to] return a new [Success]:
    [is_success] is true, [is_failure] is false and [get] returns [v].  A
    thunk that raises an instance [e] of [Exception] makes [Try.to] return
    a new [Failure]: [is_failure] is true and [get] raises [e] again; the
    call of [Try.to] itself returns and does not raise. *)
Theorem to_wraps_result_or_error (f : Callable0) (s s1 : State) :
  (forall v, f (tick s) = (Returned v, s1) ->
     exists r s2,
       Try.to f s = (Returned (VRef r), s2) /\
       heap s2 !! r = Some (SuccessObj v true) /\
       Try.is_success r s2 = (Returned true, s2) /\
       Try.is_failure r s2 = (Returned false, s2) /\
       Try.get r s2 = (Returned v, s2)) /\
  (forall e, f (tick s) = (Raised e, s1) ->
     isinstance e Exception = true ->
     exists r s2,
       Try.to f s = (Returned (VRef r), s2) /\
       heap s2 !! r = Some (FailureObj (VExc e)) /\
       Try.is_failure r s2 = (Returned true, s2) /\
       Try.is_success r s2 = (Returned false, s2) /\
       Try.get r s2 = (Raised e, s2)).
Proof.
  split.
  - intros v Hf. eexists _, _. split; [exact (to_Returned _ _ _ _ Hf) |].
    assert (Hl : heap (mkState (heap s1 ++ [SuccessObj v true]) (calls s1))
                   !! length (heap s1) = Some (SuccessObj v true))
      by apply lookup_snoc.
    split; [exact Hl |].
    destruct (is_success_Success _ _ _ _ Hl) as [-> ->].
    now rewrite (get_Success _ _ _ _ Hl).
  - intros e Hf He. eexists _, _.
    split; [rewrite (to_Raised _ _ _ _ Hf), He; reflexivity |].
    assert (Hl : heap (mkState (heap s1 ++ [FailureObj (VExc e)]) (calls s1))
                   !! length (heap s1) = Some (FailureObj (VExc e)))
      by apply lookup_snoc.
    split; [exact Hl |].
    destruct (is_failure_Failure _ _ _ Hl) as [-> ->].
    now rewrite (get_Failure _ _ _ Hl).
Qed.

Lemma to_wraps_result_or_error_witness :
  (exists r s2,
     Try.to (ret (VInt 5)) s_init = (Returned (VRef r), s2) /\
     heap s2 !! r = Some (SuccessObj (VInt 5) true) /\
     Try.is_success r s2 = (Returned true, s2) /\
     Try.is_failure r s2 = (Returned false, s2) /\
     Try.get r s2 = (Returned (VInt 5), s2)) /\
  (exists r s2,
     Try.to (raise division_by_zero) s_init = (Returned (VRef r), s2) /\
     heap s2 !! r = Some (FailureObj (VExc division_by_zero)) /\
     Try.is_failure r s2 = (Returned true, s2) /\
     Try.is_success r s2 = (Returned false, s2) /\
     Try.get r s2 = (Raised division_by_zero, s2)).
Proof.
  split.
  - apply (proj1 (to_wraps_result_or_error (ret (VInt 5)) s_init
                    (tick s_init)) (VInt 5)).
    reflexivity.
  - apply (proj2 (to_wraps_result_or_error (raise division_by_zero) s_init
                    (tick s_init)) division_by_zero).
    + reflexivity.
    + vm_compute. reflexivity.
Defined.

(** C9.  When the thunk raises an object that is not an instance of
    [Exception] ([KeyboardInterrupt], [SystemExit], [GeneratorExit], or a
    bare [BaseException]), [Try.to] raises that same object to its caller
    and builds no [Failure]; whenever [Try.to] returns although the thunk
    raised, the raised object was an instance of [Exception]. *)
Theorem to_propagates_non_Exception (f : Callable0) (s s1 : State)
    (e : PyExc) :
  f (tick s) = (Raised e, s1) ->
  (isinstance e Exception = false -> Try.to f s = (Raised e, s1)) /\
  (exc_class e ∈ [KeyboardInterrupt; SystemExit; GeneratorExit;
                   BaseException] ->
   Try.to f s = (Raised e, s1)) /\
  (forall r s2, Try.to f s = (Returned r, s2) ->
     isinstance e Exception = true /\
     r = VRef (length (heap s1)) /\
     heap s2 !! length (heap s1) = Some (FailureObj (VExc e))).
Proof.
  intros Hf. rewrite (to_Raised _ _ _ _ Hf).
  split; [| split].
  - now intros ->.
  - intros Hc.
    assert (He : isinstance e Exception = false).
    { unfold isinstance.
      repeat (apply elem_of_cons in Hc as [-> | Hc]; [reflexivity |]).
      now apply elem_of_nil in Hc. }
    now rewrite He.
  - intros r s2. destruct (isinstance e Exception); [| discriminate].
    intros [= <- <-]. repeat split. apply lookup_snoc.
Qed.

Lemma to_propagates_non_Exception_witness :
  Try.to (raise keyboard_interrupt) s_init
    = (Raised keyboard_interrupt, tick s_init).
Proof.
  apply (proj1 (to_propagates_non_Exception (raise keyboard_interrupt)
                  s_init (tick s_init) keyboard_interrupt eq_refl)).
  vm_compute. reflexivity.
Defined.

(** ** [StopIteration] raised by a supplied computation *)

(** C2, as stated, fails.  A thunk, or a function given to [flat_map] or
    [map], that raises [StopIteration] does not see it reach the caller:
    each of the three returns a reference to a new [Failure] that holds
    the [StopIteration]. *)
Lemma StopIteration_not_propagated :
  let s1 := mkState [SuccessObj (VInt 1) true] 0 in
  let f : Callable1 := fun _ => raise stop_iteration in
  (raise stop_iteration : Callable0) (tick s_init)
    = (Raised stop_iteration, tick s_init) /\
  Try.to (raise stop_iteration) s_init
    = (Returned (VRef 0),
       mkState [FailureObj (VExc stop_iteration)] 1) /\
  Try.to (raise stop_iteration) s_init
    <> (Raised stop_iteration, tick s_init) /\
  Try.flat_map 0 f s1
    = (Returned (VRef 1),
       mkState [SuccessObj (VInt 1) true;
                FailureObj (VExc stop_iteration)] 1) /\
  Try.flat_map 0 f s1 <> (Raised stop_iteration, tick s1) /\
  Try.map 0 f s1
    = (Returned (VRef 1),
       mkState [SuccessObj (VInt 1) true;
                FailureObj (VExc stop_iteration)] 2) /\
  Try.map 0 f s1 <> (Raised stop_iteration, tick (tick s1)).
Proof.
  cbv zeta. repeat split; try (vm_compute; reflexivity);
    vm_compute; discriminate.
Qed.

(** C2, amended.  [StopIteration] descends from [Exception], so the
    [except Exception] clauses catch it like any other error: a thunk or
    function that raises an instance [e] of [StopIteration] makes
    [Try.to], and [flat_map] and [map] of a [Success], return a reference
    to a new [Failure] in the store that holds [e].  Only objects that
    are not instances of [Exception] propagate: such an object raised by
    the thunk or function leaves the call as raised, and whatever leaves
    [Try.to], [flat_map] or [map] as an exception is not an instance of
    [Exception]. *)
Theorem StopIteration_is_captured (e : PyExc) (s s1 : State) :
  (isinstance e StopIteration = true ->
   (forall f : Callable0,
      f (tick s) = (Raised e, s1) ->
      Try.to f s
        = (Returned (VRef (length (heap s1))),
           mkState (heap s1 ++ [FailureObj (VExc e)]) (calls s1))) /\
   (forall (f : Callable1) l v b,
      heap s !! l = Some (SuccessObj v b) ->
      f v (tick s) = (Raised e, s1) ->
      Try.flat_map l f s
        = (Returned (VRef (length (heap s1))),
           mkState (heap s1 ++ [FailureObj (VExc e)]) (calls s1))) /\
   (forall (f : Callable1) l v b,
      heap s !! l = Some (SuccessObj v b) ->
      f v (tick (tick s)) = (Raised e, s1) ->
      Try.map l f s
        = (Returned (VRef (length (heap s1))),
           mkState (heap s1 ++ [FailureObj (VExc e)]) (calls s1)))) /\
  (isinstance e Exception = false ->
   (forall f : Callable0,
      f (tick s) = (Raised e, s1) -> Try.to f s = (Raised e, s1)) /\
   (forall (f : Callable1) l v b,
      heap s !! l = Some (SuccessObj v b) ->
      f v (tick s) = (Raised e, s1) ->
      Try.flat_map l f s = (Raised e, s1)) /\
   (forall (f : Callable1) l v b,
      heap s !! l = Some (SuccessObj v b) ->
      f v (tick (tick s)) = (Raised e, s1) ->
      Try.map l f s = (Raised e, s1))) /\
  (forall f : Callable0,
     Try.to f s = (Raised e, s1) -> isinstance e Exception = false) /\
  (forall (f : Callable1) l,
     Try.flat_map l f s = (Raised e, s1) ->
     isinstance e Exception = false) /\
  (forall (f : Callable1) l,
     Try.map l f s = (Raised e, s1) -> isinstance e Exception = false).
Proof.
  split; [| split; [| split; [| split]]].
  - intros He. apply isinstance_StopIteration_Exception in He.
    split; [| split].
    + intros f Hf. now rewrite (to_Raised _ _ _ _ Hf), He.
    + intros f l v b Hl Hf.
      now rewrite (flat_map_Success _ _ _ _ _ Hl), Hf, He.
    + intros f l v b Hl Hf. rewrite (map_Success _ _ _ _ _ Hl).
      assert (Hi : invoke1 f v (tick s) = (Raised e, s1)) by exact Hf.
      now rewrite (to_Raised _ _ _ _ Hi), He.
  - intros He. split; [| split].
    + intros f Hf. now rewrite (to_Raised _ _ _ _ Hf), He.
    + intros f l v b Hl Hf.
      now rewrite (flat_map_Success _ _ _ _ _ Hl), Hf, He.
    + intros f l v b Hl Hf. rewrite (map_Success _ _ _ _ _ Hl).
      assert (Hi : invoke1 f v (tick s) = (Raised e, s1)) by exact Hf.
      now rewrite (to_Raised _ _ _ _ Hi), He.
  - intros f. apply to_raises_only_non_Exception.
  - intros f l. apply try_except_raises_only_non_Exception.
    intros e0 s0. eexists _, _. reflexivity.
  - intros f l. unfold Try.map, bind.
    destruct (Try.is_success l s) as [[[|] | e0 |] s0] eqn:E;
      try discriminate.
    + apply to_raises_only_non_Exception.
    + intros H. exfalso. revert E. unfold Try.is_success, bind, deref.
      destruct (heap s !! l); discriminate.
Qed.

Lemma StopIteration_is_captured_witness :
  let s1 := mkState [SuccessObj (VInt 1) true] 0 in
  let f : Callable1 := fun _ => raise stop_iteration in
  let g : Callable1 := fun _ => raise keyboard_interrupt in
  (Try.to (raise stop_iteration) s_init
     = (Returned (VRef 0), mkState [FailureObj (VExc stop_iteration)] 1) /\
   Try.flat_map 0 f s1
     = (Returned (VRef 1),
        mkState [SuccessObj (VInt 1) true;
                 FailureObj (VExc stop_iteration)] 1) /\
   Try.map 0 f s1
     = (Returned (VRef 1),
        mkState [SuccessObj (VInt 1) true;
                 FailureObj (VExc stop_iteration)] 2)) /\
  (Try.to (raise keyboard_interrupt) s_init
     = (Raised keyboard_interrupt, tick s_init) /\
   Try.flat_map 0 g s1 = (Raised keyboard_interrupt, tick s1) /\
   Try.map 0 g s1 = (Raised keyboard_interrupt, tick (tick s1))) /\
  isinstance keyboard_interrupt Exception = false.
Proof.
  cbv zeta.
  assert (He : isinstance stop_iteration StopIteration = true)
    by (vm_compute; reflexivity).
  assert (Hk : isinstance keyboard_interrupt Exception = false)
    by (vm_compute; reflexivity).
  split; [split; [| split] | split; [split; [| split] |]].
  - apply (proj1 (proj1 (StopIteration_is_captured stop_iteration s_init
                           (tick s_init)) He)).
    reflexivity.
  - apply (proj1 (proj2 (proj1 (StopIteration_is_captured stop_iteration
             (mkState [SuccessObj (VInt 1) true] 0)
             (tick (mkState [SuccessObj (VInt 1) true] 0))) He))
             (fun _ => raise stop_iteration) 0 (VInt 1) true);
      reflexivity.
  - apply (proj2 (proj2 (proj1 (StopIteration_is_captured stop_iteration
             (mkState [SuccessObj (VInt 1) true] 0)
             (tick (tick (mkState [SuccessObj (VInt 1) true] 0)))) He))
             (fun _ => raise stop_iteration) 0 (VInt 1) true);
      reflexivity.
  - apply (proj1 (proj1 (proj2 (StopIteration_is_captured
             keyboard_interrupt s_init (tick s_init))) Hk)).
    reflexivity.
  - apply (proj1 (proj2 (proj1 (proj2 (StopIteration_is_captured
             keyboard_interrupt
             (mkState [SuccessObj (VInt 1) true] 0)
             (tick (mkState [SuccessObj (VInt 1) true] 0)))) Hk))
             (fun _ => raise keyboard_interrupt) 0 (VInt 1) true);
      reflexivity.
  - apply (proj2 (proj2 (proj1 (proj2 (StopIteration_is_captured
             keyboard_interrupt
             (mkState [SuccessObj (VInt 1) true] 0)
             (tick (tick (mkState [SuccessObj (VInt 1) true] 0))))) Hk))
             (fun _ => raise keyboard_interrupt) 0 (VInt 1) true);
      reflexivity.
  - apply (proj1 (proj2 (proj2 (StopIteration_is_captured
             keyboard_interrupt s_init (tick s_init))))
             (raise keyboard_interrupt)).
    reflexivity.
Defined.

(** ** [map] and [flat_map] *)



(** C4, as stated, fails.  A function that raises a
    [KeyboardInterrupt], given to [flat_map] of a [Success], does not
    yield a [Failure]: [flat_map] raises the [KeyboardInterrupt] to its
    caller and the store gets no new object. *)
Lemma flat_map_lets_KeyboardInterrupt_through :
  let f : Callable1 := fun _ => raise keyboard_interrupt in
  heap s_one !! 0 = Some (SuccessObj (VInt 1) true) /\
  f (VInt 1) (tick s_one) = (Raised keyboard_interrupt, tick s_one) /\
  Try.flat_map 0 f s_one = (Raised keyboard_interrupt, tick s_one) /\
  heap (snd (Try.flat_map 0 f s_one)) = heap s_one /\
  (forall r s2, Try.flat_map 0 f s_one <> (Returned r, s2)).
Proof.
  cbv zeta. repeat split; try (vm_compute; reflexivity).
  intros r s2. vm_compute. discriminate.
Qed.

(** C4, amended.  On a [Success] holding [v], [flat_map f] returns the
    very value [f v] returned, in the state [f] left, and allocates
    nothing; when [f] raises an instance [e] of [Exception] it returns a
    reference to a new [Failure] in the store holding [e]; when [f]
    raises an object that is not an instance of [Exception], [flat_map]
    raises that object and makes no [Failure].  On a [Failure] holding
    the error [e], [flat_map f] returns a new [Failure], a different
    object from the receiver, which holds [e]; the count of invocations
    is unchanged, so [f] was not called. *)
Theorem flat_map_chains (f : Callable1) (s : State) (l : loc) :
  (forall v b, heap s !! l = Some (SuccessObj v b) ->
     (forall r s1, f v (tick s) = (Returned r, s1) ->
        Try.flat_map l f s = (Returned r, s1)) /\
     (forall e s1, f v (tick s) = (Raised e, s1) ->
        isinstance e Exception = true ->
        Try.flat_map l f s
          = (Returned (VRef (length (heap s1))),
             mkState (heap s1 ++ [FailureObj (VExc e)]) (calls s1)) /\
        Try.is_failure (length (heap s1)) (snd (Try.flat_map l f s))
          = (Returned true, snd (Try.flat_map l f s)) /\
        Try.get (length (heap s1)) (snd (Try.flat_map l f s))
          = (Raised e, snd (Try.flat_map l f s))) /\
     (forall e s1, f v (tick s) = (Raised e, s1) ->
        isinstance e Exception = false ->
        Try.flat_map l f s = (Raised e, s1))) /\
  (forall e, heap s !! l = Some (FailureObj (VExc e)) ->
     isinstance e Exception = true ->
     Try.flat_map l f s
       = (Returned (VRef (length (heap s))),
          mkState (heap s ++ [FailureObj (VExc e)]) (calls s)) /\
     exists l' s2,
       Try.flat_map l f s = (Returned (VRef l'), s2) /\
       l' <> l /\
       heap s2 !! l' = Some (FailureObj (VExc e)) /\
       heap s2 !! l = Some (FailureObj (VExc e)) /\
       calls s2 = calls s).
Proof.
  split.
  - intros v b Hl. rewrite (flat_map_Success _ _ _ _ _ Hl).
    split; [| split].
    + now intros r s1 ->.
    + intros e s1 -> ->. split; [reflexivity |].
      assert (Hn : heap (mkState (heap s1 ++ [FailureObj (VExc e)])
                           (calls s1))
                     !! length (heap s1) = Some (FailureObj (VExc e)))
        by apply lookup_snoc.
      cbn [snd Failure alloc]. split.
      * apply (proj1 (is_failure_Failure _ _ _ Hn)).
      * apply (get_Failure _ _ _ Hn).
    + now intros e s1 -> ->.
  - intros e Hl He. rewrite (flat_map_Failure _ _ _ _ Hl), He.
    split; [reflexivity |].
    eexists _, _. split; [reflexivity |]. simpl.
    split; [apply lookup_lt_Some in Hl; lia |].
    split; [apply lookup_snoc |].
    split; [now apply lookup_snoc_old | reflexivity].
Qed.

Lemma flat_map_chains_witness :
  Try.flat_map 0 try_add_one s_one
    = (Returned (VRef 1),
       mkState [SuccessObj (VInt 1) true; SuccessObj (VInt 2) true] 2) /\
  Try.flat_map 0 (fun _ => raise value_error) s_one
    = (Returned (VRef 1),
       mkState [SuccessObj (VInt 1) true;
                FailureObj (VExc value_error)] 1) /\
  Try.flat_map 0 (fun _ => raise keyboard_interrupt) s_one
    = (Raised keyboard_interrupt, tick s_one) /\
  (exists l' s2,
     Try.flat_map 0 try_add_one s_err = (Returned (VRef l'), s2) /\
     l' <> 0 /\
     heap s2 !! l' = Some (FailureObj (VExc value_error)) /\
     heap s2 !! 0 = Some (FailureObj (VExc value_error)) /\
     calls s2 = calls s_err).
Proof.
  pose proof (proj1 (flat_map_chains try_add_one s_one 0)
                (VInt 1) true eq_refl) as [H1 _].
  pose proof (proj1 (flat_map_chains (fun _ => raise value_error) s_one 0)
                (VInt 1) true eq_refl) as [_ [H2 _]].
  pose proof (proj1 (flat_map_chains (fun _ => raise keyboard_interrupt)
                       s_one 0)
                (VInt 1) true eq_refl) as [_ [_ H2']].
  pose proof (proj2 (flat_map_chains try_add_one s_err 0)
                value_error eq_refl) as H3.
  split; [| split; [| split]].
  - apply H1. reflexivity.
  - apply (H2 value_error (tick s_one));
      [reflexivity | vm_compute; reflexivity].
  - apply H2'; [reflexivity | vm_compute; reflexivity].
  - apply H3. vm_compute. reflexivity.
Defined.

(** ** [failed] and [get_or_else] *)



(** C7.  [get_or_else d] on a [Success] holding [v] returns [v]; on a
    [Failure] it returns [d], raises nothing, and leaves the store as it
    was. *)
Theorem get_or_else_value_or_default (s : State) (l : loc) (d : Value) :
  (forall v b, heap s !! l = Some (SuccessObj v b) ->
     Try.get_or_else l d s = (Returned v, s)) /\
  (forall x, heap s !! l = Some (FailureObj x) ->
     Try.get_or_else l d s = (Returned d, s)).
Proof.
  split.
  - intros v b Hl. unfold Try.get_or_else, bind.
    rewrite (proj2 (is_success_Success _ _ _ _ Hl)).
    apply (get_Success _ _ _ _ Hl).
  - intros x Hl. unfold Try.get_or_else, bind.
    now rewrite (proj1 (is_failure_Failure _ _ _ Hl)).
Qed.

Lemma get_or_else_value_or_default_witness :
  Try.get_or_else 0 (VInt (-1)) s_one = (Returned (VInt 1), s_one) /\
  Try.get_or_else 0 (VInt (-1)) s_err = (Returned (VInt (-1)), s_err).
Proof.
  split.
  - apply (proj1 (get_or_else_value_or_default s_one 0 (VInt (-1)))
             (VInt 1) true eq_refl).
  - apply (proj2 (get_or_else_value_or_default s_err 0 (VInt (-1)))
             (VExc value_error) eq_refl).
Defined.

(** ** Iteration *)

Lemma next_has_next (s : State) (l : loc) (v : Value) :
  heap s !! l = Some (SuccessObj v true) ->
  Try.__next__ l s
    = (Returned v, mkState (<[l := SuccessObj v false]> (heap s)) (calls s)).
Proof.
  intros H. unfold Try.__next__, bind. now rewrite (deref_Some _ _ _ H).
Qed.

Lemma next_exhausted (s : State) (l : loc) (v : Value) :
  heap s !! l = Some (SuccessObj v false) ->
  Try.__next__ l s
    = (Raised stop_iteration,
       mkState (<[l := SuccessObj v true]> (heap s)) (calls s)).
Proof.
  intros H. unfold Try.__next__, bind. now rewrite (deref_Some _ _ _ H).
Qed.

Lemma next_Failure (s : State) (l : loc) (x : Value) :
  heap s !! l = Some (FailureObj x) ->
  Try.__next__ l s = (Raised stop_iteration, s).
Proof.
  intros H. unfold Try.__next__, bind. now rewrite (deref_Some _ _ _ H).
Qed.

Lemma lookup_set (h : list TryObj) (l : loc) (o o' : TryObj) :
  h !! l = Some o -> <[l := o']> h !! l = Some o'.
Proof.
  intros H. apply list_lookup_insert_eq. by eapply lookup_lt_Some.
Qed.

Lemma set_set_back (h : list TryObj) (l : loc) (o o' : TryObj) :
  h !! l = Some o -> <[l := o]> (<[l := o']> h) = h.
Proof.
  intros H. rewrite list_insert_insert_eq. now apply list_insert_id.
Qed.

(** A complete pass over a [Success] whose cursor is at the start takes
    two calls of [__next__] and leaves the state as it found it. *)
Lemma iterate_Success (fuel : nat) (s : State) (l : loc) (v : Value) :
  heap s !! l = Some (SuccessObj v true) ->
  iterate (S (S fuel)) l s = Some (Returned [v], s).
Proof.
  intros H. unfold iterate, Try.__iter__, ret. unfold drain; fold drain.
  rewrite (next_has_next _ _ _ H).
  assert (H' : heap (mkState (<[l := SuccessObj v false]> (heap s)) (calls s))
                 !! l = Some (SuccessObj v false))
    by (simpl; eapply lookup_set, H).
  rewrite (next_exhausted _ _ _ H'). simpl.
  rewrite (set_set_back _ _ _ _ H). now rewrite State_eta.
Qed.

Lemma iterate_Failure (fuel : nat) (s : State) (l : loc) (x : Value) :
  heap s !! l = Some (FailureObj x) ->
  iterate (S fuel) l s = Some (Returned [], s).
Proof.
  intros H. unfold iterate, Try.__iter__, ret. unfold drain; fold drain.
  now rewrite (next_Failure _ _ _ H).
Qed.

Lemma passes_fixed (fuel n : nat) (s : State) (l : loc)
    (r : Outcome (list Value)) :
  iterate fuel l s = Some (r, s) ->
  passes fuel n l s = Some (repeat r n, s).
Proof.
  intros H. induction n as [| n IH]; simpl; [reflexivity |].
  now rewrite H, IH.
Qed.

(** C5.  A complete pass over a [Success] holding [v] whose cursor is at
    the start, as the constructor leaves it, yields [[v]] and puts the
    cursor back, so any number of complete passes one after the other
    yield [[v]] each.  A pass over a [Failure] yields the empty list and
    raises nothing, however often it is repeated.  Two calls of
    [__next__] are enough for a pass over a [Success], one for a
    [Failure]. *)
Theorem iteration_restarts (s : State) (l : loc) (fuel n : nat) :
  (forall v, heap s !! l = Some (SuccessObj v true) -> 2 <= fuel ->
     iterate fuel l s = Some (Returned [v], s) /\
     passes fuel n l s = Some (repeat (Returned [v]) n, s)) /\
  (forall v, 2 <= fuel ->
     passes fuel n (length (heap s)) (snd (Success v s))
       = Some (repeat (Returned [v]) n, snd (Success v s))) /\
  (forall x, heap s !! l = Some (FailureObj x) -> 1 <= fuel ->
     iterate fuel l s = Some (Returned [], s) /\
     passes fuel n l s = Some (repeat (Returned []) n, s)).
Proof.
  split; [| split].
  - intros v Hl Hfuel.
    destruct fuel as [| [| fuel]]; [lia | lia |].
    pose proof (iterate_Success fuel _ _ _ Hl) as Hi.
    split; [exact Hi | now apply passes_fixed].
  - intros v Hfuel.
    destruct fuel as [| [| fuel]]; [lia | lia |].
    apply passes_fixed, iterate_Success. simpl. apply lookup_snoc.
  - intros x Hl Hfuel.
    destruct fuel as [| fuel]; [lia |].
    pose proof (iterate_Failure fuel _ _ _ Hl) as Hi.
    split; [exact Hi | now apply passes_fixed].
Qed.

Lemma iteration_restarts_witness :
  (iterate 2 0 s_one = Some (Returned [VInt 1], s_one) /\
   passes 2 3 0 s_one
     = Some ([Returned [VInt 1]; Returned [VInt 1]; Returned [VInt 1]],
             s_one)) /\
  passes 2 2 0 (snd (Success (VInt 7) s_init))
    = Some ([Returned [VInt 7]; Returned [VInt 7]],
            snd (Success (VInt 7) s_init)) /\
  (iterate 1 0 s_err = Some (Returned [], s_err) /\
   passes 1 3 0 s_err
     = Some ([Returned []; Returned []; Returned []], s_err)).
Proof.
  split; [| split].
  - apply (proj1 (iteration_restarts s_one 0 2 3) (VInt 1) eq_refl). lia.
  - apply (proj1 (proj2 (iteration_restarts s_init 0 2 2)) (VInt 7)). lia.
  - apply (proj2 (proj2 (iteration_restarts s_err 0 1 3))
             (VExc value_error) eq_refl).
    lia.
Defined.

Lemma even_succ_flip (k : nat) (b : bool) :
  Bool.eqb (Nat.even (S k)) b = Bool.eqb (Nat.even k) (negb b).
Proof.
  rewrite Nat.even_succ, <- Nat.negb_even.
  now destruct (Nat.even k), b.
Qed.

(** The [k]-th of [n] consecutive calls of [__next__] returns the value
    when [k]'s parity matches the cursor the calls started from. *)
Lemma nexts_lookup (l : loc) (v : Value) (n : nat) :
  forall (s : State) (b : bool) (k : nat),
    heap s !! l = Some (SuccessObj v b) -> k < n ->
    fst (nexts n l s) !! k
      = Some (if Bool.eqb (Nat.even k) b then Returned v
              else Raised stop_iteration).
Proof.
  induction n as [| n IH]; intros s b k Hl Hk; [lia |].
  simpl.
  assert (Hn : exists s1, Try.__next__ l s
                 = (if b then Returned v else Raised stop_iteration, s1) /\
               heap s1 !! l = Some (SuccessObj v (negb b))).
  { destruct b.
    - rewrite (next_has_next _ _ _ Hl). eexists. split; [reflexivity |].
      simpl. eapply lookup_set, Hl.
    - rewrite (next_exhausted _ _ _ Hl). eexists. split; [reflexivity |].
      simpl. eapply lookup_set, Hl. }
  destruct Hn as (s1 & -> & Hl1).
  destruct (nexts n l s1) as [rs s2] eqn:E.
  destruct k as [| k].
  - simpl. now destruct b.
  - rewrite even_succ_flip. simpl.
    replace rs with (fst (nexts n l s1)) by now rewrite E.
    apply IH; [exact Hl1 | lia].
Qed.

(** C10.  [__iter__] returns the object itself, so all passes work on the
    one cursor stored in it.  [__next__] on an exhausted cursor raises
    [StopIteration] and sets the cursor back to the start in that same
    call.  Hence, from a cursor at the start, the calls of [__next__]
    numbered 0, 2, 4, ... return [v] and those numbered 1, 3, 5, ... raise
    [StopIteration]; and after a pass that stopped right after taking
    [v], the next complete pass yields the empty list. *)
Theorem Success_cursor_is_shared (s : State) (l : loc) (v : Value) :
  Try.__iter__ l s = (Returned (VRef l), s) /\
  (heap s !! l = Some (SuccessObj v false) ->
     exists s1,
       Try.__next__ l s = (Raised stop_iteration, s1) /\
       heap s1 !! l = Some (SuccessObj v true)) /\
  (heap s !! l = Some (SuccessObj v true) ->
     (forall n k, k < n ->
        fst (nexts n l s) !! k
          = Some (if Nat.even k then Returned v
                  else Raised stop_iteration)) /\
     (forall fuel, 1 <= fuel ->
        exists s1,
          first_then_break l s = (Returned v, s1) /\
          heap s1 !! l = Some (SuccessObj v false) /\
          iterate fuel l s1 = Some (Returned [], s))).
Proof.
  split; [reflexivity | split].
  - intros Hl. rewrite (next_exhausted _ _ _ Hl).
    eexists. split; [reflexivity |]. simpl. eapply lookup_set, Hl.
  - intros Hl. split.
    + intros n k Hk. rewrite (nexts_lookup l v n s true k Hl Hk).
      now destruct (Nat.even k).
    + intros fuel Hfuel. destruct fuel as [| fuel]; [lia |].
      unfold first_then_break, bind, Try.__iter__, ret.
      rewrite (next_has_next _ _ _ Hl).
      eexists. split; [reflexivity |].
      assert (H' : heap (mkState (<[l := SuccessObj v false]> (heap s))
                           (calls s)) !! l = Some (SuccessObj v false))
        by (simpl; eapply lookup_set, Hl).
      split; [exact H' |].
      unfold iterate, Try.__iter__, ret. unfold drain; fold drain.
      rewrite (next_exhausted _ _ _ H'). simpl.
      rewrite (set_set_back _ _ _ _ Hl). now rewrite State_eta.
Qed.

Lemma Success_cursor_is_shared_witness :
  (exists s1,
     Try.__next__ 0 (mkState [SuccessObj (VInt 1) false] 0)
       = (Raised stop_iteration, s1) /\
     heap s1 !! 0 = Some (SuccessObj (VInt 1) true)) /\
  fst (nexts 5 0 s_one) !! 3 = Some (Raised stop_iteration) /\
  fst (nexts 5 0 s_one) !! 4 = Some (Returned (VInt 1)) /\
  (exists s1,
     first_then_break 0 s_one = (Returned (VInt 1), s1) /\
     heap s1 !! 0 = Some (SuccessObj (VInt 1) false) /\
     iterate 1 0 s1 = Some (Returned [], s_one)).
Proof.
  pose proof (Success_cursor_is_shared
                (mkState [SuccessObj (VInt 1) false] 0) 0 (VInt 1))
    as [_ [H1 _]].
  pose proof (Success_cursor_is_shared s_one 0 (VInt 1))
    as [_ [_ H2]].
  destruct (H2 eq_refl) as [Ha Hb].
  split; [exact (H1 eq_refl) | split; [| split]].
  - apply (Ha 5 3). lia.
  - apply (Ha 5 4). lia.
  - apply (Hb 1). lia.
Defined.

(** ** The [Failure] half of the invariant is preserved *)

Section Preservation.

Lemma preserves_ret {A} (a : A) : preserves (ret a).
Proof. now intros s Hs. Qed.

Lemma preserves_raise {A} (e : PyExc) : preserves (@raise A e).
Proof. now intros s Hs. Qed.

Lemma preserves_raise_value {A} (x : Value) : preserves (@raise_value A x).
Proof. destruct x; apply preserves_raise. Qed.

Lemma preserves_bind {A B} (m : M A) (k : A -> M B) :
  preserves m -> (forall a, preserves (k a)) -> preserves (bind m k).
Proof.
  intros Hm Hk s Hs. specialize (Hm s Hs). unfold bind.
  destruct (m s) as [[a | e |] s1]; simpl in *; [now apply Hk | done..].
Qed.

Lemma preserves_try_except {A} (body : M A) (cls : ExcClass)
    (handler : PyExc -> M A) :
  preserves body -> (forall e, preserves (handler e)) ->
  preserves (try_except body cls handler).
Proof.
  intros Hb Hh s Hs. specialize (Hb s Hs). unfold try_except.
  destruct (body s) as [[a | e |] s1]; simpl in *; [done | | done].
  destruct (isinstance e cls); [now apply Hh | done].
Qed.

Lemma preserves_alloc (o : TryObj) :
  failure_holds_error o = true -> preserves (alloc o).
Proof.
  intros Ho s Hs. unfold failures_hold_errors in *. simpl.
  apply Forall_app. split; [done | now repeat constructor].
Qed.

Lemma preserves_store (l : loc) (o : TryObj) :
  failure_holds_error o = true -> preserves (store l o).
Proof.
  intros Ho s Hs. unfold failures_hold_errors in *. simpl.
  now apply Forall_insert.
Qed.

Lemma preserves_deref (l : loc) : preserves (deref l).
Proof. intros s Hs. unfold deref. now destruct (heap s !! l). Qed.

Lemma preserves_invoke0 (f : Callable0) : preserves f -> preserves (invoke0 f).
Proof. intros Hf s Hs. apply (Hf (tick s)). exact Hs. Qed.

Lemma preserves_invoke1 (f : Callable1) (x : Value) :
  preserves (f x) -> preserves (invoke1 f x).
Proof. intros Hf s Hs. apply (Hf (tick s)). exact Hs. Qed.

Lemma preserves_Success (v : Value) : preserves (Success v).
Proof. now apply preserves_alloc. Qed.

Lemma preserves_Failure (e : PyExc) : preserves (Failure (VExc e)).
Proof. now apply preserves_alloc. Qed.

Lemma preserves_get (l : loc) : preserves (Try.get l).
Proof.
  apply preserves_bind; [apply preserves_deref |].
  intros [v b | v]; [apply preserves_ret | apply preserves_raise_value].
Qed.

Lemma preserves_to (f : Callable0) : preserves f -> preserves (Try.to f).
Proof.
  intros Hf. apply preserves_try_except; [| apply preserves_Failure].
  apply preserves_bind; [now apply preserves_invoke0 |].
  apply preserves_Success.
Qed.

Lemma run_preserves (op : Op) : callables_preserve op -> preserves (run op).
Proof.
  destruct op; simpl; intros Hop.
  - apply preserves_Success.
  - apply preserves_Failure.
  - now apply preserves_to.
  - now apply preserves_to.
  - apply preserves_get.
  - apply preserves_bind;
      [apply preserves_bind; [apply preserves_deref | intros; apply preserves_ret] |].
    intros [|]; [| apply preserves_Failure].
    apply preserves_bind; [| apply preserves_Success].
    apply preserves_bind; [apply preserves_deref | intros; apply preserves_ret].
  - apply preserves_bind;
      [apply preserves_bind; [apply preserves_deref | intros; apply preserves_ret] |].
    intros [|]; [apply preserves_ret | apply preserves_get].
  - apply preserves_try_except; [| apply preserves_Failure].
    apply preserves_bind; [apply preserves_get |].
    intros v. now apply preserves_invoke1.
  - apply preserves_bind;
      [apply preserves_bind; [apply preserves_deref | intros; apply preserves_ret] |].
    intros [|]; [| apply preserves_ret].
    apply preserves_to, preserves_bind; [apply preserves_get |].
    intros v. now apply preserves_invoke1.
  - apply preserves_bind;
      [apply preserves_bind; [apply preserves_deref | intros; apply preserves_ret] |].
    intros [|]; apply preserves_ret.
  - apply preserves_bind; [apply preserves_deref |].
    intros [v b | v]; [| apply preserves_ret].
    apply preserves_bind; [apply preserves_get |].
    intros w. now apply preserves_invoke1.
  - apply preserves_ret.
  - apply preserves_bind; [apply preserves_deref |].
    intros [v [|] | v].
    + apply preserves_bind; [now apply preserves_store |].
      intros; apply preserves_ret.
    + apply preserves_bind; [now apply preserves_store |].
      intros; apply preserves_raise.
    + apply preserves_raise.
Qed.

End Preservation.

(** C8, as stated, fails.  [Try.to] of a thunk that raises, followed by
    [failed] on the [Failure] it returned, reaches a store whose second
    object is a [Success] holding the error. *)
Lemma failed_puts_error_in_Success :
  let s1 := snd (run (CallTo (raise division_by_zero)) s_init) in
  let s2 := snd (run (CallFailed 0) s1) in
  reachable s2 /\
  forallb payload_as_specified (heap s1) = true /\
  heap s2 = [FailureObj (VExc division_by_zero);
             SuccessObj (VExc division_by_zero) true] /\
  forallb payload_as_specified (heap s2) = false.
Proof.
  cbv zeta. split; [| repeat split; vm_compute; reflexivity].
  apply reach_step; [| exact I].
  apply reach_step; [apply reach_init |].
  simpl. apply preserves_raise.
Qed.

(** C8, amended.  In every state reached from the empty store by the
    constructors, the factory and the methods, with callables that keep
    the property themselves, every [Failure] holds an error object.  (A
    [Success] may hold one too: that is what [failed] returns.) *)
Theorem reachable_failures_hold_errors (s : State) :
  reachable s ->
  forall l x, heap s !! l = Some (FailureObj x) -> is_error x = true.
Proof.
  intros Hr.
  assert (Hs : failures_hold_errors s).
  { induction Hr as [| s op _ IH Hop].
    - constructor.
    - now apply run_preserves. }
  intros l x Hl. unfold failures_hold_errors in Hs.
  rewrite Forall_lookup in Hs. exact (Hs l _ Hl).
Qed.

Lemma reachable_failures_hold_errors_witness :
  heap (snd (run (CallTo (raise division_by_zero)) s_init)) !! 0
    = Some (FailureObj (VExc division_by_zero)) /\
  is_error (VExc division_by_zero) = true.
Proof.
  split; [reflexivity |].
  apply (reachable_failures_hold_errors
           (snd (run (CallTo (raise division_by_zero)) s_init))
           (reach_step s_init (CallTo (raise division_by_zero)) reach_init
              (preserves_raise division_by_zero))
           0 (VExc division_by_zero)).
  reflexivity.
Defined.

(** ** Further properties of the methods *)

(** X1.  [or_else t] on a [Success] returns the receiver itself; on a
    [Failure] it returns [t] as given, whatever [t] is.  The store is
    untouched in both cases. *)
Theorem or_else_self_or_alternative (s : State) (l : loc) (t : Value) :
  (forall v b, heap s !! l = Some (SuccessObj v b) ->
     Try.or_else l t s = (Returned (VRef l), s)) /\
  (forall x, heap s !! l = Some (FailureObj x) ->
     Try.or_else l t s = (Returned t, s)).
Proof.
  split.
  - intros v b Hl. unfold Try.or_else, bind.
    now rewrite (proj1 (is_success_Success _ _ _ _ Hl)).
  - intros x Hl. unfold Try.or_else, bind.
    now rewrite (proj2 (is_failure_Failure _ _ _ Hl)).
Qed.

Lemma or_else_self_or_alternative_witness :
  Try.or_else 0 (VRef 7) s_one = (Returned (VRef 0), s_one) /\
  Try.or_else 0 (VInt 3) s_err = (Returned (VInt 3), s_err).
Proof.
  split.
  - apply (proj1 (or_else_self_or_alternative s_one 0 (VRef 7))
             (VInt 1) true eq_refl).
  - apply (proj2 (or_else_self_or_alternative s_err 0 (VInt 3))
             (VExc value_error) eq_refl).
Defined.

(** X2.  [for_each f] on a [Success] is one call of [f] on the held
    value and nothing else: it returns what [f] returns, and an exception
    raised by [f], of whatever class, reaches the caller; nothing is
    caught here.  On a [Failure] it returns [None] and the store and the
    count of invocations are as before. *)
Theorem for_each_calls_once_or_skips (f : Callable1) (s : State) (l : loc) :
  (forall v b, heap s !! l = Some (SuccessObj v b) ->
     Try.for_each l f s = f v (tick s) /\
     (forall e s1, f v (tick s) = (Raised e, s1) ->
        Try.for_each l f s = (Raised e, s1))) /\
  (forall x, heap s !! l = Some (FailureObj x) ->
     Try.for_each l f s = (Returned VNone, s)).
Proof.
  split.
  - intros v b Hl.
    assert (E : Try.for_each l f s = f v (tick s)).
    { unfold Try.for_each. unfold bind at 1.
      rewrite (deref_Some _ _ _ Hl). unfold bind.
      now rewrite (get_Success _ _ _ _ Hl). }
    split; [exact E | intros e s1 Hf; now rewrite E].
  - intros x Hl. unfold Try.for_each, bind.
    now rewrite (deref_Some _ _ _ Hl).
Qed.

Lemma for_each_calls_once_or_skips_witness :
  Try.for_each 0 add_one s_one = (Returned (VInt 2), tick s_one) /\
  Try.for_each 0 (fun _ => raise value_error) s_one
    = (Raised value_error, tick s_one) /\
  Try.for_each 0 add_one s_err = (Returned VNone, s_err).
Proof.
  pose proof (proj1 (for_each_calls_once_or_skips add_one s_one 0)
                (VInt 1) true eq_refl) as [H1 _].
  pose proof (proj1 (for_each_calls_once_or_skips
                       (fun _ => raise value_error) s_one 0)
                (VInt 1) true eq_refl) as [_ H2].
  pose proof (proj2 (for_each_calls_once_or_skips add_one s_err 0)
                (VExc value_error) eq_refl) as H3.
  split; [exact H1 | split; [| exact H3]].
  apply H2. reflexivity.
Defined.

(** X3.  The accessors and the two defaulting methods only read: in
    every state and for every reference, [is_success], [is_failure],
    [value], [get], [get_or_else], [or_else] and [__iter__] leave the
    store, the cursors in it and the count of invocations as they were,
    also when [get] raises. *)
Theorem reads_leave_state (s : State) (l : loc) (d t : Value) :
  snd (Try.is_success l s) = s /\
  snd (Try.is_failure l s) = s /\
  snd (Try.value l s) = s /\
  snd (Try.get l s) = s /\
  snd (Try.get_or_else l d s) = s /\
  snd (Try.or_else l t s) = s /\
  snd (Try.__iter__ l s) = s.
Proof.
  unfold Try.is_success, Try.is_failure, Try.value, Try.get,
    Try.get_or_else, Try.or_else, Try.__iter__, Try.is_failure,
    Try.is_success, Try.get, bind, deref, ret.
  destruct (heap s !! l) as [[v b | v] |] eqn:E; simpl; rewrite ?E; simpl;
    repeat split; destruct v; reflexivity.
Qed.

Lemma failed_of_Failure (s : State) (l : loc) (x : Value) :
  heap s !! l = Some (FailureObj x) -> Try.failed l s = Success x s.
Proof.
  intros Hl. unfold Try.failed, Try.value, bind.
  rewrite (proj1 (is_failure_Failure _ _ _ Hl)).
  now rewrite (deref_Some _ _ _ Hl).
Qed.

Lemma failed_of_Success (s : State) (l : loc) (v : Value) (b : bool) :
  heap s !! l = Some (SuccessObj v b) ->
  Try.failed l s = Failure (VExc unsupported) s.
Proof.
  intros Hl. unfold Try.failed, bind.
  now rewrite (proj2 (is_success_Success _ _ _ _ Hl)).
Qed.

(** X4.  [failed] followed by [get] gives back the payload of a
    [Failure], the same value its [value] property shows, without
    raising.  On a [Success] the same two calls raise the
    [UnsupportedOperationException] that [failed] put in the new
    [Failure]. *)
Theorem failed_get_unwraps (s : State) (l : loc) :
  (forall x, heap s !! l = Some (FailureObj x) ->
     failed_get l s
       = (Returned x, mkState (heap s ++ [SuccessObj x true]) (calls s)) /\
     Try.value l s = (Returned x, s)) /\
  (forall v b, heap s !! l = Some (SuccessObj v b) ->
     failed_get l s
       = (Raised unsupported,
          mkState (heap s ++ [FailureObj (VExc unsupported)]) (calls s))).
Proof.
  split.
  - intros x Hl. unfold failed_get, bind.
    rewrite (failed_of_Failure _ _ _ Hl). simpl. split.
    + apply get_Success with (b := true). simpl. apply lookup_snoc.
    + unfold Try.value, bind. now rewrite (deref_Some _ _ _ Hl).
  - intros v b Hl. unfold failed_get, bind.
    rewrite (failed_of_Success _ _ _ _ Hl). simpl.
    apply get_Failure. simpl. apply lookup_snoc.
Qed.

Lemma failed_get_unwraps_witness :
  failed_get 0 s_err
    = (Returned (VExc value_error),
       mkState [FailureObj (VExc value_error);
                SuccessObj (VExc value_error) true] 0) /\
  Try.value 0 s_err = (Returned (VExc value_error), s_err) /\
  failed_get 0 s_one
    = (Raised unsupported,
       mkState [SuccessObj (VInt 1) true;
                FailureObj (VExc unsupported)] 0).
Proof.
  pose proof (proj1 (failed_get_unwraps s_err 0)
                (VExc value_error) eq_refl) as [H1 H2].
  pose proof (proj2 (failed_get_unwraps s_one 0)
                (VInt 1) true eq_refl) as H3.
  split; [exact H1 | split; [exact H2 | exact H3]].
Defined.

(** X5.  [failed] is not its own inverse.  Applied twice to a [Failure]
    it ends in a [Failure] again, but one that holds the
    [UnsupportedOperationException] made by the second call, not the
    original error; applied twice to a [Success] it ends in a [Success]
    that holds that exception, not the original value.  Each call
    allocates one object and the receiver stays as it was. *)
Theorem failed_twice_loses_payload (s : State) (l : loc) :
  (forall x, heap s !! l = Some (FailureObj x) ->
     failed_failed l s
       = (Returned (VRef (S (length (heap s)))),
          mkState (heap s ++ [SuccessObj x true;
                              FailureObj (VExc unsupported)]) (calls s))) /\
  (forall v b, heap s !! l = Some (SuccessObj v b) ->
     failed_failed l s
       = (Returned (VRef (S (length (heap s)))),
          mkState (heap s ++ [FailureObj (VExc unsupported);
                              SuccessObj (VExc unsupported) true])
            (calls s))).
Proof.
  split.
  - intros x Hl. unfold failed_failed, bind.
    rewrite (failed_of_Failure _ _ _ Hl). simpl.
    erewrite failed_of_Success by (simpl; apply lookup_snoc).
    unfold Failure, alloc. simpl.
    rewrite length_app, <- app_assoc. simpl.
    now rewrite Nat.add_1_r.
  - intros v b Hl. unfold failed_failed, bind.
    rewrite (failed_of_Success _ _ _ _ Hl). simpl.
    erewrite failed_of_Failure by (simpl; apply lookup_snoc).
    unfold Success, alloc. simpl.
    rewrite length_app, <- app_assoc. simpl.
    now rewrite Nat.add_1_r.
Qed.

Lemma failed_twice_loses_payload_witness :
  failed_failed 0 s_err
    = (Returned (VRef 2),
       mkState [FailureObj (VExc value_error);
                SuccessObj (VExc value_error) true;
                FailureObj (VExc unsupported)] 0) /\
  failed_failed 0 s_one
    = (Returned (VRef 2),
       mkState [SuccessObj (VInt 1) true;
                FailureObj (VExc unsupported);
                SuccessObj (VExc unsupported) true] 0).
Proof.
  split.
  - apply (proj1 (failed_twice_loses_payload s_err 0)
             (VExc value_error) eq_refl).
  - apply (proj2 (failed_twice_loses_payload s_one 0)
             (VInt 1) true eq_refl).
Defined.

(** X6.  [Try.to(f).get_or_else(d)]: the value [f] returned when [f]
    returns, [d] when [f] raises an instance of [Exception], and the
    raised object itself, reaching the caller, when it is not an instance
    of [Exception].  In the first two cases the store has one more
    object, the [Success] or [Failure] the factory made. *)
Theorem to_get_or_else_defaults (f : Callable0) (d : Value)
    (s s1 : State) :
  (forall v, f (tick s) = (Returned v, s1) ->
     to_get_or_else f d s
       = (Returned v,
          mkState (heap s1 ++ [SuccessObj v true]) (calls s1))) /\
  (forall e, f (tick s) = (Raised e, s1) ->
     isinstance e Exception = true ->
     to_get_or_else f d s
       = (Returned d,
          mkState (heap s1 ++ [FailureObj (VExc e)]) (calls s1))) /\
  (forall e, f (tick s) = (Raised e, s1) ->
     isinstance e Exception = false ->
     to_get_or_else f d s = (Raised e, s1)).
Proof.
  split; [| split].
  - intros v Hf. unfold to_get_or_else, bind.
    rewrite (to_Returned _ _ _ _ Hf). simpl.
    unfold Try.get_or_else, bind.
    assert (Hl : heap (mkState (heap s1 ++ [SuccessObj v true]) (calls s1))
                   !! length (heap s1) = Some (SuccessObj v true))
      by apply lookup_snoc.
    rewrite (proj2 (is_success_Success _ _ _ _ Hl)).
    apply (get_Success _ _ _ _ Hl).
  - intros e Hf He. unfold to_get_or_else, bind.
    rewrite (to_Raised _ _ _ _ Hf), He. simpl.
    unfold Try.get_or_else, bind.
    assert (Hl : heap (mkState (heap s1 ++ [FailureObj (VExc e)]) (calls s1))
                   !! length (heap s1) = Some (FailureObj (VExc e)))
      by apply lookup_snoc.
    now rewrite (proj1 (is_failure_Failure _ _ _ Hl)).
  - intros e Hf He. unfold to_get_or_else, bind.
    now rewrite (to_Raised _ _ _ _ Hf), He.
Qed.

Lemma to_get_or_else_defaults_witness :
  to_get_or_else (ret (VInt 5)) (VInt (-1)) s_init
    = (Returned (VInt 5), mkState [SuccessObj (VInt 5) true] 1) /\
  to_get_or_else (raise division_by_zero) (VInt (-1)) s_init
    = (Returned (VInt (-1)),
       mkState [FailureObj (VExc division_by_zero)] 1) /\
  to_get_or_else (raise keyboard_interrupt) (VInt (-1)) s_init
    = (Raised keyboard_interrupt, tick s_init).
Proof.
  split; [| split].
  - apply (proj1 (to_get_or_else_defaults (ret (VInt 5)) (VInt (-1))
                    s_init (tick s_init)) (VInt 5) eq_refl).
  - apply (proj1 (proj2 (to_get_or_else_defaults (raise division_by_zero)
                           (VInt (-1)) s_init (tick s_init)))
             division_by_zero eq_refl).
    vm_compute. reflexivity.
  - apply (proj2 (proj2 (to_get_or_else_defaults (raise keyboard_interrupt)
                           (VInt (-1)) s_init (tick s_init)))
             keyboard_interrupt eq_refl).
    vm_compute. reflexivity.
Defined.

(** X7.  [t.flat_map(Success)] copies the outcome: for a [Success]
    holding [v] it returns a new [Success] holding [v], a different
    object whose cursor is at the start whatever the receiver's cursor
    was; for a [Failure] holding an instance [e] of [Exception] it
    returns a new [Failure] holding [e] and the class is not called.  The
    receiver is not modified. *)
Theorem flat_map_Success_copies (s : State) (l : loc) :
  (forall v b, heap s !! l = Some (SuccessObj v b) ->
     flat_map_Success_class l s
       = (Returned (VRef (length (heap s))),
          mkState (heap s ++ [SuccessObj v true]) (S (calls s))) /\
     length (heap s) <> l) /\
  (forall e, heap s !! l = Some (FailureObj (VExc e)) ->
     isinstance e Exception = true ->
     flat_map_Success_class l s
       = (Returned (VRef (length (heap s))),
          mkState (heap s ++ [FailureObj (VExc e)]) (calls s)) /\
     length (heap s) <> l).
Proof.
  split.
  - intros v b Hl. unfold flat_map_Success_class.
    rewrite (flat_map_Success _ _ _ _ _ Hl).
    split; [reflexivity | apply lookup_lt_Some in Hl; lia].
  - intros e Hl He. unfold flat_map_Success_class.
    rewrite (flat_map_Failure _ _ _ _ Hl), He.
    split; [reflexivity | apply lookup_lt_Some in Hl; lia].
Qed.

Lemma flat_map_Success_copies_witness :
  flat_map_Success_class 0 (mkState [SuccessObj (VInt 1) false] 0)
    = (Returned (VRef 1),
       mkState [SuccessObj (VInt 1) false; SuccessObj (VInt 1) true] 1) /\
  flat_map_Success_class 0 s_err
    = (Returned (VRef 1),
       mkState [FailureObj (VExc value_error);
                FailureObj (VExc value_error)] 0).
Proof.
  split.
  - apply (proj1 (flat_map_Success_copies
                    (mkState [SuccessObj (VInt 1) false] 0) 0)
             (VInt 1) false eq_refl).
  - apply (proj2 (flat_map_Success_copies s_err 0) value_error eq_refl).
    vm_compute. reflexivity.
Defined.

(** X8.  A [Failure] made to hold an exception that is not an instance
    of [Exception] (a [KeyboardInterrupt], say) is not inert under
    [flat_map]: [get] raises the held object inside the [try], the
    [except Exception] clause does not match, and the object reaches the
    caller of [flat_map] with no new [Failure] made.  [map] and
    [get_or_else] on the same object do not call [get] and return
    normally. *)
Theorem flat_map_reraises_non_Exception (f : Callable1) (s : State)
    (l : loc) (e : PyExc) (d : Value) :
  heap s !! l = Some (FailureObj (VExc e)) ->
  isinstance e Exception = false ->
  Try.flat_map l f s = (Raised e, s) /\
  Try.map l f s = (Returned (VRef l), s) /\
  Try.get_or_else l d s = (Returned d, s).
Proof.
  intros Hl He. split; [| split].
  - now rewrite (flat_map_Failure _ _ _ _ Hl), He.
  - apply (map_Failure _ _ _ _ Hl).
  - unfold Try.get_or_else, bind.
    now rewrite (proj1 (is_failure_Failure _ _ _ Hl)).
Qed.

Lemma flat_map_reraises_non_Exception_witness :
  let s := mkState [FailureObj (VExc keyboard_interrupt)] 0 in
  Try.flat_map 0 add_one s = (Raised keyboard_interrupt, s) /\
  Try.map 0 add_one s = (Returned (VRef 0), s) /\
  Try.get_or_else 0 VNone s = (Returned VNone, s).
Proof.
  cbv zeta.
  apply (flat_map_reraises_non_Exception add_one
           (mkState [FailureObj (VExc keyboard_interrupt)] 0) 0
           keyboard_interrupt VNone eq_refl).
  vm_compute. reflexivity.
Defined.

Lemma iterate_exhausted (fuel : nat) (s : State) (l : loc) (v : Value) :
  heap s !! l = Some (SuccessObj v false) ->
  iterate (S fuel) l s
    = Some (Returned [],
            mkState (<[l := SuccessObj v true]> (heap s)) (calls s)).
Proof.
  intros H. unfold iterate, Try.__iter__, ret. unfold drain; fold drain.
  now rewrite (next_exhausted _ _ _ H).
Qed.

(** X9.  A complete pass over a [Success] ends with the cursor at the
    start, wherever it began: it yields [[v]] from a cursor at the start
    and the empty list from an exhausted one, and nothing else in the
    store changes.  So after a first complete pass, whatever it yielded,
    every further complete pass yields [[v]]. *)
Theorem pass_resets_cursor (s : State) (l : loc) (v : Value) (b : bool)
    (fuel n : nat) :
  heap s !! l = Some (SuccessObj v b) -> 2 <= fuel ->
  iterate fuel l s
    = Some (Returned (if b then [v] else []),
            mkState (<[l := SuccessObj v true]> (heap s)) (calls s)) /\
  passes fuel (S n) l s
    = Some (Returned (if b then [v] else []) :: repeat (Returned [v]) n,
            mkState (<[l := SuccessObj v true]> (heap s)) (calls s)).
Proof.
  intros Hl Hfuel. destruct fuel as [| [| fuel]]; [lia | lia |].
  assert (Hi : iterate (S (S fuel)) l s
                 = Some (Returned (if b then [v] else []),
                         mkState (<[l := SuccessObj v true]> (heap s))
                           (calls s))).
  { destruct b.
    - rewrite (iterate_Success _ _ _ _ Hl).
      rewrite list_insert_id by exact Hl. now rewrite State_eta.
    - apply (iterate_exhausted _ _ _ _ Hl). }
  split; [exact Hi |].
  cbn [passes]. rewrite Hi.
  rewrite (passes_fixed (S (S fuel)) n _ l (Returned [v])); [reflexivity |].
  apply iterate_Success. simpl. eapply lookup_set, Hl.
Qed.

Lemma pass_resets_cursor_witness :
  let s := mkState [SuccessObj (VInt 1) false] 0 in
  iterate 2 0 s = Some (Returned [], s_one) /\
  passes 2 3 0 s
    = Some ([Returned []; Returned [VInt 1]; Returned [VInt 1]], s_one).
Proof.
  cbv zeta.
  apply (pass_resets_cursor (mkState [SuccessObj (VInt 1) false] 0) 0
           (VInt 1) false 2 2 eq_refl).
  lia.
Defined.

Lemma repr_of_Success (builtin_str : Value -> M string) (s : State)
    (l : loc) (v : Value) (b : bool) :
  heap s !! l = Some (SuccessObj v b) ->
  __repr__ builtin_str l s
    = match builtin_str v s with
      | (Returned t, s1) =>
          (Returned (VStr (String.append "Success("
                             (String.append t ")"))), s1)
      | (Raised e, s1) => (Raised e, s1)
      | (Wrong, s1) => (Wrong, s1)
      end.
Proof.
  intros Hl. unfold __repr__. unfold bind at 1.
  rewrite (deref_Some _ _ _ Hl). unfold bind.
  now destruct (builtin_str v s) as [[t | e |] s1].
Qed.

Lemma repr_of_Failure (builtin_str : Value -> M string) (s : State)
    (l : loc) (x : Value) :
  heap s !! l = Some (FailureObj x) ->
  __repr__ builtin_str l s
    = match builtin_str x s with
      | (Returned t, s1) =>
          (Returned (VStr (String.append "Failure("
                             (String.append t ")"))), s1)
      | (Raised e, s1) => (Raised e, s1)
      | (Wrong, s1) => (Wrong, s1)
      end.
Proof.
  intros Hl. unfold __repr__. unfold bind at 1.
  rewrite (deref_Some _ _ _ Hl). unfold bind.
  now destruct (builtin_str x s) as [[t | e |] s1].
Qed.

Lemma str_of_object (builtin_str : Value -> M string) (s : State)
    (l : loc) (o : TryObj) :
  heap s !! l = Some o ->
  __str__ builtin_str l s
    = match builtin_str (payload o) s with
      | (Returned t, s1) => (Returned (VStr t), s1)
      | (Raised e, s1) => (Raised e, s1)
      | (Wrong, s1) => (Wrong, s1)
      end.
Proof.
  intros Hl. unfold __str__. unfold bind at 1.
  rewrite (deref_Some _ _ _ Hl). unfold bind.
  now destruct (builtin_str (payload o) s) as [[t | e |] s1].
Qed.

(** X10.  [__repr__] names the variant and [__str__] does not.  When
    [str] of the payload returns [t], the [__repr__] of a [Success] is
    ["Success("], [t] and [")"], that of a [Failure] the same with
    ["Failure("], and the [__str__] of either is [t] alone; when [str] of
    the payload raises, [__repr__] and [__str__] raise the same
    exception.  Whenever [__repr__] returns for a [Success] and for a
    [Failure], the two strings differ; a [Success] and a [Failure] with
    the same payload have the same [__str__]. *)
Theorem repr_names_variant (builtin_str : Value -> M string)
    (s : State) (l l' : loc) (v x : Value) (b : bool) :
  heap s !! l = Some (SuccessObj v b) ->
  heap s !! l' = Some (FailureObj x) ->
  (forall t s1, builtin_str v s = (Returned t, s1) ->
     __repr__ builtin_str l s
       = (Returned (VStr (String.append "Success("
                            (String.append t ")"))), s1) /\
     __str__ builtin_str l s = (Returned (VStr t), s1)) /\
  (forall t s1, builtin_str x s = (Returned t, s1) ->
     __repr__ builtin_str l' s
       = (Returned (VStr (String.append "Failure("
                            (String.append t ")"))), s1) /\
     __str__ builtin_str l' s = (Returned (VStr t), s1)) /\
  (forall e s1, builtin_str v s = (Raised e, s1) ->
     __repr__ builtin_str l s = (Raised e, s1) /\
     __str__ builtin_str l s = (Raised e, s1)) /\
  (forall e s1, builtin_str x s = (Raised e, s1) ->
     __repr__ builtin_str l' s = (Raised e, s1) /\
     __str__ builtin_str l' s = (Raised e, s1)) /\
  (forall a a' s1 s2,
     __repr__ builtin_str l s = (Returned a, s1) ->
     __repr__ builtin_str l' s = (Returned a', s2) ->
     a <> a') /\
  (x = v -> __str__ builtin_str l s = __str__ builtin_str l' s).
Proof.
  intros Hl Hl'.
  rewrite (repr_of_Success _ _ _ _ _ Hl), (repr_of_Failure _ _ _ _ Hl'),
    (str_of_object _ _ _ _ Hl), (str_of_object _ _ _ _ Hl').
  cbn [payload].
  split; [now intros t s1 -> |].
  split; [now intros t s1 -> |].
  split; [now intros e s1 -> |].
  split; [now intros e s1 -> |].
  split; [| now intros ->].
  intros a a' s1 s2.
  destruct (builtin_str v s) as [[t | e |] s0]; try discriminate.
  destruct (builtin_str x s) as [[t' | e' |] s0']; try discriminate.
  intros [= <- _] [= <- _]. discriminate.
Qed.

Lemma repr_names_variant_witness :
  let s := mkState [SuccessObj (VStr "x") true; FailureObj (VStr "x")] 0 in
  let s' := mkState [SuccessObj VNone true; FailureObj (VStr "x")] 0 in
  __repr__ str_of_string 0 s = (Returned (VStr "Success(x)"), s) /\
  __repr__ str_of_string 1 s = (Returned (VStr "Failure(x)"), s) /\
  __repr__ str_of_string 0 s' = (Raised value_error, s') /\
  VStr "Success(x)" <> VStr "Failure(x)" /\
  __str__ str_of_string 0 s = __str__ str_of_string 1 s.
Proof.
  cbv zeta.
  pose proof (repr_names_variant str_of_string
                (mkState [SuccessObj (VStr "x") true; FailureObj (VStr "x")] 0)
                0 1 (VStr "x") (VStr "x") true eq_refl eq_refl)
    as (H1 & H2 & _ & _ & H5 & H6).
  pose proof (repr_names_variant str_of_string
                (mkState [SuccessObj VNone true; FailureObj (VStr "x")] 0)
                0 1 VNone (VStr "x") true eq_refl eq_refl)
    as (_ & _ & H3 & _).
  split; [apply (H1 "x" _ eq_refl) |].
  split; [apply (H2 "x" _ eq_refl) |].
  split; [apply (H3 value_error _ eq_refl) |].
  split; [| apply H6; reflexivity].
  apply (H5 _ _ _ _ (proj1 (H1 "x" _ eq_refl)) (proj1 (H2 "x" _ eq_refl))).
Defined.

(** ** No operation changes an existing object, its cursor apart *)

Section ObjectsKept.




















End ObjectsKept.




(** X12.  Two consecutive calls of [__next__] on a [Success] bring the
    whole state back to what it was, from either cursor position: one of
    the two returns the value and the other raises [StopIteration], the
    value first when the cursor was at the start.  On a [Failure] every
    call raises [StopIteration] and the state never changes. *)
Theorem next_twice_restores (s : State) (l : loc) (n : nat) :
  (forall v b, heap s !! l = Some (SuccessObj v b) ->
     nexts 2 l s
       = (if b then [Returned v; Raised stop_iteration]
          else [Raised stop_iteration; Returned v], s)) /\
  (forall x, heap s !! l = Some (FailureObj x) ->
     nexts n l s = (repeat (Raised stop_iteration) n, s)).
Proof.
  split.
  - intros v b Hl. cbn [nexts]. destruct b.
    + rewrite (next_has_next _ _ _ Hl).
      assert (H' : heap (mkState (<[l := SuccessObj v false]> (heap s))
                           (calls s)) !! l = Some (SuccessObj v false))
        by (simpl; eapply lookup_set, Hl).
      rewrite (next_exhausted _ _ _ H'). simpl.
      rewrite (set_set_back _ _ _ _ Hl). now rewrite State_eta.
    + rewrite (next_exhausted _ _ _ Hl).
      assert (H' : heap (mkState (<[l := SuccessObj v true]> (heap s))
                           (calls s)) !! l = Some (SuccessObj v true))
        by (simpl; eapply lookup_set, Hl).
      rewrite (next_has_next _ _ _ H'). simpl.
      rewrite (set_set_back _ _ _ _ Hl). now rewrite State_eta.
  - intros x Hl. induction n as [| n IH]; [reflexivity |].
    cbn [nexts]. rewrite (next_Failure _ _ _ Hl), IH. reflexivity.
Qed.

Lemma next_twice_restores_witness :
  let s := mkState [SuccessObj (VInt 1) false] 0 in
  nexts 2 0 s = ([Raised stop_iteration; Returned (VInt 1)], s) /\
  nexts 3 0 s_err
    = ([Raised stop_iteration; Raised stop_iteration;
        Raised stop_iteration], s_err).
Proof.
  cbv zeta. split.
  - apply (proj1 (next_twice_restores
                    (mkState [SuccessObj (VInt 1) false] 0) 0 0)
             (VInt 1) false eq_refl).
  - apply (proj2 (next_twice_restores s_err 0 3)
             (VExc value_error) eq_refl).
Defined.
